(** * Apr: financial and economic appraisal indicators

    A shallow embedding of [Apr.py]: the two evaluation functions
    [financial_evaluation] and [economic_evaluation], the bilingual label
    table [TRANSLATIONS] and the part of [main] that selects the indicator
    groups and builds the result list.

    A spreadsheet cell is a float (IEEE 754 binary64, Rocq's primitive
    [float]), a whole number or a text, and a column has the dtype pandas
    gives it: [int64], whose arithmetic wraps around, [float64] or [object].
    The [DataFrame] is a finite map from column labels to columns,
    and it lives in the state of the run together with what was written on
    the page, so that reading a column ([data['Revenues']]), mutating the
    frame ([data.fillna(0, inplace=True)]) and reporting ([st.error]) are the
    effects they are in the source. *)

From Stdlib Require Import ZArith Floats.
From stdpp Require Import gmap strings list fin_maps.

Module Apr.

(** ** Labels: [TRANSLATIONS] *)

Inductive lang := fr | en.
Inductive code := VANF | TRIF | DRC | VANE | TRIE | RCA.

Definition TRANSLATIONS (c : code) (language : lang) : string :=
  match c, language with
  | VANF, fr => "Valeur Actuelle Nette Financière"
  | VANF, en => "Financial Net Present Value"
  | TRIF, fr => "Taux de Rendement Interne Financier"
  | TRIF, en => "Financial Internal Rate of Return"
  | DRC, fr => "Délai de Récupération du Capital"
  | DRC, en => "Capital Recovery Period"
  | VANE, fr => "Valeur Actuelle Nette Économique"
  | VANE, en => "Economic Net Present Value"
  | TRIE, fr => "Taux de Rendement Interne Économique"
  | TRIE, en => "Economic Internal Rate of Return"
  | RCA, fr => "Rendement du Capital Ajusté"
  | RCA, en => "Adjusted Capital Yield"
  end.

(** ** Cells, columns and frames *)

(** A cell of a loaded sheet: a floating-point number (a blank cell is
    NaN), a text, or a whole number.  Whole numbers are those of int64;
    larger ones, dates and booleans are not cells of this model. *)
Inductive cell :=
| Num (x : float)
| Txt (s : string)
| Int (z : Z).

(** A column of a frame is a [list cell]; the frame maps each column label to
    its column.  All columns of one frame have the frame's number of rows. *)
Abbreviation DataFrame := (gmap string (list cell)).

Definition well_formed (n : nat) (data : DataFrame) : Prop :=
  map_Forall (λ _ col, length col = n) data.

(** The value of an indicator: [npv] and [irr] are floats, the recovery
    period is an integer count. *)
Inductive value :=
| VFloat (x : float)
| VInt (n : Z).

(** One row of [results]: [{'Indicateur': ..., 'Valeur': ...}]. *)
Record entry := Entry { Indicateur : string; Valeur : value }.

(** ** Exceptions and the state of a run *)

Inductive exception :=
| KeyError (key : string)
| TypeError
| LibraryError (msg : string).

Inductive result (A : Type) :=
| Ok (a : A)
| Raise (e : exception).
Arguments Ok {A} a.
Arguments Raise {A} e.

(** What the run writes on the page.  [st_error prefix e] is
    [st.error(f"{prefix}{e}")]; [st_write rs] is the results table. *)
Inductive widget :=
| st_error (prefix : string) (e : exception)
| st_success (msg : string)
| st_dataframe (shown : DataFrame)
| st_write (rs : list entry).

(** The state: the frame [data] refers to, and the page (latest first). *)
Record session := Session { data : DataFrame; page : list widget }.

(** A computation returns or raises, and leaves a state either way. *)
Definition M (A : Type) : Type := session → result A * session.

#[global] Instance M_ret : MRet M := λ A a s, (Ok a, s).
#[global] Instance M_bind : MBind M := λ A B f m s,
  match m s with
  | (Ok a, s') => f a s'
  | (Raise e, s') => (Raise e, s')
  end.

Definition lift {A} (r : result A) : M A := λ s, (r, s).

(** [try: body except Exception as e: handler e]. *)
Definition try_except {A} (body : M A) (handler : exception → M A) : M A :=
  λ s, match body s with
       | (Ok a, s') => (Ok a, s')
       | (Raise e, s') => handler e s'
       end.

(** [data[key]]: the column, or [KeyError]. *)
Definition getitem (key : string) : M (list cell) :=
  λ s, match data s !! key with
       | Some col => (Ok col, s)
       | None => (Raise (KeyError key), s)
       end.

(** [st.error(...)] and the other page writes. *)
Definition show (w : widget) : M unit :=
  λ s, (Ok tt, {| data := data s; page := w :: page s |}).

(** ** pandas and numpy arithmetic *)

(** The dtype pandas gives a column: [int64] when every cell is a whole
    number, [object] when a cell is a text, [float64] otherwise (whole
    numbers beside floats or blanks are then floats). *)
Inductive dtype := int64 | float64 | object.

Definition is_int (c : cell) : bool :=
  match c with Int _ => true | _ => false end.

Definition is_text (c : cell) : bool :=
  match c with Txt _ => true | _ => false end.

Definition dtype_of (col : list cell) : dtype :=
  if forallb is_int col then int64
  else if existsb is_text col then object
  else float64.

(** int64 arithmetic wraps around. *)
Definition wrap (z : Z) : Z := ((z + 2 ^ 63) `mod` 2 ^ 64 - 2 ^ 63)%Z.

(** The binary64 value nearest to a whole number (ties to even). *)
Definition float_of_int (z : Z) : float :=
  SF2Prim (binary_normalize prec emax z 0 false).

(** The result of arithmetic on columns: an int64 or a float64 series. *)
Inductive series :=
| Ints (zs : list Z)
| Floats (xs : list float).

Definition cells_of (s : series) : list cell :=
  match s with
  | Ints zs => Int <$> zs
  | Floats xs => Num <$> xs
  end.

Definition as_floats (s : series) : list float :=
  match s with
  | Ints zs => float_of_int <$> zs
  | Floats xs => xs
  end.

Definition series_length (s : series) : nat :=
  match s with
  | Ints zs => length zs
  | Floats xs => length xs
  end.

(** The two operations the program uses, [-] and [+]. *)
Inductive binop := Sub | Add.

Definition float_op (op : binop) : float → float → float :=
  match op with Sub => PrimFloat.sub | Add => PrimFloat.add end.

Definition int_op (op : binop) : Z → Z → Z :=
  match op with Sub => Z.sub | Add => Z.add end.

(** The whole numbers of an int64 column. *)
Definition ints (col : list cell) : list Z :=
  omap (λ c, match c with Int z => Some z | _ => None end) col.

(** A blank: NaN. *)
Definition is_null (c : cell) : bool :=
  match c with Num x => is_nan x | _ => false end.

(** One row of an operation outside int64.  Numbers are operated on as
    floats (two whole numbers of an object column exactly, before they are
    made floats).  A text opposite a blank is masked and gives NaN; a text
    opposite anything else raises [TypeError]. *)
Definition row_op (op : binop) (a b : cell) : result float :=
  match a, b with
  | Num x, Num y => Ok (float_op op x y)
  | Num x, Int w => Ok (float_op op x (float_of_int w))
  | Int z, Num y => Ok (float_op op (float_of_int z) y)
  | Int z, Int w => Ok (float_of_int (int_op op z w))
  | Txt _, c | c, Txt _ => if is_null c then Ok nan else Raise TypeError
  end.

(** The whole numbers of a float64 column are floats. *)
Definition loaded (col : list cell) : list cell :=
  match dtype_of col with
  | float64 =>
      (λ c, match c with Int z => Num (float_of_int z) | _ => c end) <$> col
  | _ => col
  end.

(** Rows aligned on the row index; a row present on one side only has a
    blank on the other. *)
Fixpoint align (a b : list cell) : list (cell * cell) :=
  match a, b with
  | x :: a', y :: b' => (x, y) :: align a' b'
  | [], _ => (λ y, (Num nan, y)) <$> b
  | _, [] => (λ x, (x, Num nan)) <$> a
  end.

Fixpoint rows_op (op : binop) (rows : list (cell * cell)) : result (list float) :=
  match rows with
  | [] => Ok []
  | (x, y) :: rows' =>
      match row_op op x y with
      | Ok v =>
          match rows_op op rows' with
          | Ok vs => Ok (v :: vs)
          | Raise e => Raise e
          end
      | Raise e => Raise e
      end
  end.

(** [a - b] and [a + b] on columns: int64 with int64 stays int64 and wraps;
    anything else is done row by row in floats. *)
Definition series_op (op : binop) (a b : list cell) : result series :=
  match dtype_of a, dtype_of b with
  | int64, int64 =>
      if decide (length a = length b)
      then Ok (Ints (zip_with (λ z w, wrap (int_op op z w)) (ints a) (ints b)))
      else Ok (Floats ((λ _, nan) <$> align a b))
  | _, _ =>
      match rows_op op (align (loaded a) (loaded b)) with
      | Ok vs => Ok (Floats vs)
      | Raise e => Raise e
      end
  end.

(** numpy's [sum] of a float64 array.  Fewer than 8 numbers are added in
    order; up to 128 are added into 8 running sums, which are then paired,
    and the numbers left over are added last; more are split in two near
    the middle, at a multiple of 8. *)
Fixpoint add_blocks (n : nat) (r xs : list float) : list float * list float :=
  match n with
  | O => (r, xs)
  | S n' =>
      add_blocks n' (zip_with PrimFloat.add r (take 8 xs)) (drop 8 xs)
  end.

Definition unrolled_sum (xs : list float) : float :=
  match add_blocks (length xs / 8 - 1) (take 8 xs) (drop 8 xs) with
  | ([r0; r1; r2; r3; r4; r5; r6; r7], rest) =>
      fold_left PrimFloat.add rest
        (((r0 + r1) + (r2 + r3)) + ((r4 + r5) + (r6 + r7)))%float
  | (_, _) => fold_left PrimFloat.add xs 0%float
  end.

Fixpoint pairwise_sum (fuel : nat) (xs : list float) : float :=
  let n := length xs in
  if decide (n < 8) then fold_left PrimFloat.add xs 0%float
  else if decide (n ≤ 128) then unrolled_sum xs
  else
    match fuel with
    | O => unrolled_sum xs
    | S fuel' =>
        let n2 := (n / 2 - (n / 2) `mod` 8)%nat in
        (pairwise_sum fuel' (take n2 xs) + pairwise_sum fuel' (drop n2 xs))%float
    end.

Definition np_sum (xs : list float) : float :=
  (0 + pairwise_sum (length xs) xs)%float.

(** [Series.sum()]: an int64 column is summed in int64; in a float64 column
    NaN cells are skipped ([skipna=True]); texts cannot be added to
    numbers.  The sum is used as a divisor of a float, so it is given as a
    float. *)
Definition skipna (xs : list float) : list float :=
  (λ x, if is_nan x then 0%float else x) <$> xs.

(** The numbers of a float64 column. *)
Definition floats (col : list cell) : list float :=
  omap (λ c, match c with
             | Num x => Some x
             | Int z => Some (float_of_int z)
             | Txt _ => None
             end) col.

Definition series_sum (col : list cell) : result float :=
  match dtype_of col with
  | int64 =>
      Ok (float_of_int (fold_left (λ acc z, wrap (acc + z)) (ints col) 0%Z))
  | float64 => Ok (np_sum (skipna (floats col)))
  | object => Raise TypeError
  end.

(** [(cash_flows < 0).sum()]: the comparison gives a series of booleans, and
    their sum counts [True] as one. *)
Definition series_lt (s : series) (bound : Z) : list bool :=
  match s with
  | Ints zs => (λ z, (z <? bound)%Z) <$> zs
  | Floats xs => (λ x, (x <? float_of_int bound)%float) <$> xs
  end.

Definition sum_bools (bs : list bool) : Z :=
  fold_left (λ acc (b : bool), if b then (acc + 1)%Z else acc) bs 0%Z.

(** ** numpy_financial *)

(** [numpy_financial] is a library the program imports, not a part of it.
    Two of its numerical ingredients have no exact description here and are
    left open: numpy's floating-point power [x ** t], and [irr], which
    searches the roots of the cash-flow polynomial and returns a float (NaN
    when it finds no rate) or raises. *)
Class Numerics := {
  np_power : float → nat → float;
  irr_roots : list float → result float
}.

Section Evaluation.
Context `{Numerics}.

(** Modelled from the spec: [numpy_financial.npv] is outside the
    repository.  The present value of [values] at [rate]: period [t]
    contributes [values_t / (1 + rate) ** t], for [t = 0, 1, ...], and the
    contributions are summed; this is also the formula the library
    documents, [(values / (1 + rate) ** arange(len(values))).sum()]. *)
Definition npf_npv (rate : float) (values : list float) : float :=
  np_sum (zip_with PrimFloat.div values
            (np_power (1 + rate)%float <$> seq 0 (length values))).

(** [numpy_financial.irr]: the search itself. *)
Definition npf_irr (values : list float) : result float := irr_roots values.

(** ** The two evaluations *)

(** The [try] block of [financial_evaluation]. *)
Definition financial_body (discount_rate : float)
  : M (option float * option float * option Z) :=
  revenues ← getitem "Revenues";
  total_costs ← getitem "Total_Costs";
  cash_flows ← lift (series_op Sub revenues total_costs);
  let npv_f := npf_npv discount_rate (as_floats cash_flows) in
  irr_f ← lift (npf_irr (as_floats cash_flows));
  let drc := sum_bools (series_lt cash_flows 0) in
  mret (Some npv_f, Some irr_f, Some drc).

Definition financial_evaluation (discount_rate : float)
  : M (option float * option float * option Z) :=
  try_except (financial_body discount_rate)
    (λ e,
     _ ← show (st_error "Erreur dans l'évaluation financière : " e);
     mret (None, None, None)).

(** The [try] block of [economic_evaluation]. *)
Definition economic_body (discount_rate : float)
  : M (option float * option float * option float) :=
  corrected_revenues ← getitem "Corrected_Revenues";
  corrected_costs ← getitem "Corrected_Costs";
  net ← lift (series_op Sub corrected_revenues corrected_costs);
  externalities ← getitem "Externalities";
  cash_flows ← lift (series_op Add (cells_of net) externalities);
  let npv_e := npf_npv discount_rate (as_floats cash_flows) in
  irr_e ← lift (npf_irr (as_floats cash_flows));
  costs ← getitem "Corrected_Costs";
  total ← lift (series_sum costs);
  (* [total] is a numpy number: [/] is numpy's division, which follows
     IEEE 754 and does not raise on a zero divisor *)
  let rca := (npv_e / total)%float in
  mret (Some npv_e, Some irr_e, Some rca).

Definition economic_evaluation (discount_rate : float)
  : M (option float * option float * option float) :=
  try_except (economic_body discount_rate)
    (λ e,
     _ ← show (st_error "Erreur dans l'évaluation économique : " e);
     mret (None, None, None)).

(** ** [main]: selection of the groups and the result list *)

(** The two groups of indicators, and the columns each one asks for. *)
Inductive group := Financial | Economic.

Definition financial_columns : gset string :=
  {[ "Year"; "Total_Costs"; "Revenues"; "Residual_Value" ]}.
Definition economic_columns : gset string :=
  {[ "Corrected_Costs"; "Corrected_Revenues"; "Externalities" ]}.

Definition group_columns (g : group) : gset string :=
  match g with
  | Financial => financial_columns
  | Economic => economic_columns
  end.

(** [data.columns]. *)
Definition data_columns : M (gset string) := λ s, (Ok (dom (data s)), s).

(** [wanted.issubset(columns)]. *)
Definition issubset (wanted columns : gset string) : bool :=
  bool_decide (wanted ⊆ columns).

(** [if v is not None: results.append({'Indicateur': ..., 'Valeur': v})]. *)
Definition append_if {A} (language : lang) (c : code) (inj : A → value)
    (v : option A) (results : list entry) : list entry :=
  match v with
  | Some x => results ++ [Entry (TRANSLATIONS c language) (inj x)]
  | None => results
  end.

(** The body of [if st.sidebar.button("Générer l'évaluation")] in [main], up
    to the complete [results] list; the progress bar is cosmetic and left
    out. *)
Definition generate (language : lang) (discount_rate : float) : M (list entry) :=
  let results := [] in
  columns ← data_columns;
  let has_financial := issubset financial_columns columns in
  let has_economic := issubset economic_columns columns in
  results ←
    (if has_financial then
       '(npv_f, irr_f, drc) ← financial_evaluation discount_rate;
       let results := append_if language VANF VFloat npv_f results in
       let results := append_if language TRIF VFloat irr_f results in
       let results := append_if language DRC VInt drc results in
       mret results
     else mret results);
  results ←
    (if has_economic then
       '(npv_e, irr_e, rca) ← economic_evaluation discount_rate;
       let results := append_if language VANE VFloat npv_e results in
       let results := append_if language TRIE VFloat irr_e results in
       let results := append_if language RCA VFloat rca results in
       mret results
     else mret results);
  mret results.

(** [data = sheets[sheet_name]]: from here on [data] is the chosen sheet. *)
Definition assign_data (sheet : DataFrame) : M unit :=
  λ s, (Ok tt, {| data := sheet; page := page s |}).

(** [data.fillna(0, inplace=True)]: every NaN cell becomes zero, in place.
    The fill is taken to go through, as it does on numeric columns. *)
Definition fill_cell (c : cell) : cell :=
  match c with
  | Num x => if is_nan x then Num 0%float else Num x
  | Txt s => Txt s
  | Int z => Int z
  end.

Definition filled (d : DataFrame) : DataFrame :=
  fmap (M := gmap string) (fmap fill_cell) d.

Definition fillna : M unit :=
  λ s, (Ok tt, {| data := filled (data s); page := page s |}).

(** [main] once a file is uploaded: [loaded] is what the loading [try]
    gave up to the choice of the sheet, [rate_input] the percentage typed
    in, [button] whether the evaluation was asked for.  The fill and the
    writes that end the loading [try] are taken to go through.  The chart
    drawn from a non-empty result list is [chart] below. *)
Definition main (language : lang) (loaded : result DataFrame)
    (rate_input : float) (button : bool) : M unit :=
  match loaded with
  | Raise e => show (st_error "Erreur lors du chargement du fichier : " e)
  | Ok sheet =>
      _ ← assign_data sheet;
      _ ← fillna;
      _ ← show (st_success "Fichier chargé avec succès !");
      _ ← (λ s, show (st_dataframe (data s)) s);
      let discount_rate := (rate_input / 100)%float in
      if button then
        results ← generate language discount_rate;
        show (st_write results)
      else mret tt
  end.

(** ** Vocabulary of the statements *)

(** An indicator by its code, before a language is chosen. *)
Definition label (language : lang) (cv : code * value) : entry :=
  Entry (TRANSLATIONS cv.1 language) cv.2.

Definition tagged {A} (c : code) (inj : A → value) (v : option A)
  : list (code * value) :=
  match v with
  | Some x => [(c, inj x)]
  | None => []
  end.

Definition financial_tags (t : option float * option float * option Z)
  : list (code * value) :=
  tagged VANF VFloat t.1.1 ++ tagged TRIF VFloat t.1.2 ++ tagged DRC VInt t.2.

Definition economic_tags (t : option float * option float * option float)
  : list (code * value) :=
  tagged VANE VFloat t.1.1 ++ tagged TRIE VFloat t.1.2 ++ tagged RCA VFloat t.2.

(** What an evaluation gives on a frame: its three values and what it
    writes on the page. *)
Definition financial_outcome (rate : float) (d : DataFrame)
  : (option float * option float * option Z) * list widget :=
  match (financial_body rate (Session d [])).1 with
  | Ok t => (t, [])
  | Raise e =>
      ((None, None, None),
       [st_error "Erreur dans l'évaluation financière : " e])
  end.

Definition economic_outcome (rate : float) (d : DataFrame)
  : (option float * option float * option float) * list widget :=
  match (economic_body rate (Session d [])).1 with
  | Ok t => (t, [])
  | Raise e =>
      ((None, None, None),
       [st_error "Erreur dans l'évaluation économique : " e])
  end.

(** The codes and the error prefix of each group. *)
Definition group_codes (g : group) : list code :=
  match g with
  | Financial => [VANF; TRIF; DRC]
  | Economic => [VANE; TRIE; RCA]
  end.

Definition group_prefix (g : group) : string :=
  match g with
  | Financial => "Erreur dans l'évaluation financière : "
  | Economic => "Erreur dans l'évaluation économique : "
  end.

(** The tagged values and the page writes of a group on a frame. *)
Definition group_outcome (g : group) (rate : float) (d : DataFrame)
  : list (code * value) * list widget :=
  match g with
  | Financial =>
      (financial_tags (financial_outcome rate d).1, (financial_outcome rate d).2)
  | Economic =>
      (economic_tags (economic_outcome rate d).1, (economic_outcome rate d).2)
  end.

(** What a group contributes to a run: its outcome when its columns are
    there, nothing otherwise. *)
Definition selected (g : group) (rate : float) (d : DataFrame)
  : list (code * value) * list widget :=
  if issubset (group_columns g) (dom d) then group_outcome g rate d else ([], []).

(** The result list of a run. *)
Definition results_of (out : result (list entry) * session) : list entry :=
  match out.1 with
  | Ok rs => rs
  | Raise _ => []
  end.

(** A series whose entries are all above zero. *)
Definition all_positive (s : series) : Prop :=
  match s with
  | Ints zs => Forall (λ z, (0 < z)%Z) zs
  | Floats xs => Forall (λ x, (0 <? x)%float = true) xs
  end.

(** A series whose entries are all below zero. *)
Definition all_negative (s : series) : Prop :=
  match s with
  | Ints zs => Forall (λ z, (z < 0)%Z) zs
  | Floats xs => Forall (λ x, (x <? 0)%float = true) xs
  end.



(** The discounted sum in the spec's words: period [t] contributes
    [c_t / (1 + r) ** t], the first period being period [0]; the
    contributions are summed as numpy sums them. *)
Fixpoint contributions (r : float) (t : nat) (cs : list float) : list float :=
  match cs with
  | [] => []
  | c :: cs' => (c / np_power (1 + r)%float t)%float :: contributions r (S t) cs'
  end.

Definition discounted_sum (r : float) (cs : list float) : float :=
  np_sum (contributions r 0 cs).







End Evaluation.

(** ** A concrete [Numerics] to run the model on

    Powers by repeated multiplication, and a root search that finds no rate
    (the answer of [irr] when the polynomial has no positive real root). *)

Fixpoint power_by_products (x : float) (t : nat) : float :=
  match t with
  | O => 1%float
  | S t' => (x * power_by_products x t')%float
  end.

Definition reference : Numerics :=
  {| np_power := power_by_products; irr_roots := λ _, Ok nan |}.

(** ** Frames to run the model on *)

Definition numbers (xs : list float) : list cell := Num <$> xs.

(** The table of the spec's first test: net cash flow [50, -50, 50]. *)
Definition spec_example : DataFrame :=
  list_to_map
    [("Year", numbers [2021; 2022; 2023]%float);
     ("Revenues", numbers [100; 100; 100]%float);
     ("Total_Costs", numbers [50; 150; 50]%float);
     ("Residual_Value", numbers [0; 0; 0]%float)].

(** The same revenues and costs under other years and residual values. *)
Definition spec_example_shifted : DataFrame :=
  list_to_map
    [("Year", numbers [1; 2; 3]%float);
     ("Revenues", numbers [100; 100; 100]%float);
     ("Total_Costs", numbers [50; 150; 50]%float);
     ("Residual_Value", numbers [7; 8; 9]%float)].

(** Every period earns more than it costs. *)
Definition profitable : DataFrame :=
  list_to_map
    [("Year", numbers [2021; 2022; 2023]%float);
     ("Revenues", numbers [100; 100; 100]%float);
     ("Total_Costs", numbers [50; 60; 70]%float);
     ("Residual_Value", numbers [0; 0; 0]%float)].


(** A text where a revenue should be. *)
Definition mistyped : DataFrame :=
  list_to_map
    [("Year", numbers [2021; 2022]%float);
     ("Revenues", [Num 100; Txt "n/a"]);
     ("Total_Costs", numbers [50; 60]%float);
     ("Residual_Value", numbers [0; 0]%float);
     ("Corrected_Revenues", numbers [100; 100]%float);
     ("Corrected_Costs", [Txt "-"; Num 60]);
     ("Externalities", numbers [0; 0]%float)].

(** An economic table whose corrected costs are all zero. *)
Definition costless : DataFrame :=
  list_to_map
    [("Corrected_Revenues", numbers [10; 20]%float);
     ("Corrected_Costs", numbers [0; 0]%float);
     ("Externalities", numbers [1; 1]%float)].

Definition percent (p : float) : float := (p / 100)%float.

(** The state an evaluation leaves when its [try] block raises [e]. *)
Definition failed (g : group) (e : exception) (s : session) : session :=
  Session (data s) (st_error (group_prefix g) e :: page s).

(** ** The bar chart of [main] *)

(** [colors] and [TRANSLATIONS.keys()], in the order they are written. *)
Definition colors : list string :=
  ["blue"; "red"; "green"; "purple"; "orange"; "cyan"].

Definition TRANSLATIONS_keys : list code := [VANF; TRIF; DRC; VANE; TRIE; RCA].

(** One bar of [ax.bar(results_df['Indicateur'], results_df['Valeur'],
    color=colors)]: the bar of row [i] takes the colour at position [i] of
    the palette, which is gone through again when the rows outnumber it. *)
Record bar := Bar { bar_label : string; bar_height : value; bar_color : string }.

(** The figure handed to [st.pyplot]: the bars, and the legend, which pairs
    one patch per colour with the indicator codes, position by position. *)
Record figure := Figure { bars : list bar; legend : list (string * code) }.

(** [if not results_df.empty: ...]: no figure for an empty result list. *)
Definition chart (results : list entry) : option figure :=
  match results with
  | [] => None
  | _ :: _ =>
      Some {| bars := imap (λ i r, Bar (Indicateur r) (Valeur r)
                                     (default "" (colors !! (i `mod` length colors))))
                           results;
              legend := zip colors TRANSLATIONS_keys |}
  end.

(** ** More frames *)

(** Revenues without the costs. *)
Definition revenues_only : DataFrame :=
  list_to_map [("Revenues", numbers [100; 100]%float)].

(** Every period costs more than it earns. *)
Definition loss_making : DataFrame :=
  list_to_map
    [("Year", numbers [2021; 2022; 2023]%float);
     ("Revenues", numbers [10; 20; 30]%float);
     ("Total_Costs", numbers [50; 60; 70]%float);
     ("Residual_Value", numbers [0; 0; 0]%float)].

(** The headers of a sheet that has no rows yet. *)
Definition no_rows : DataFrame :=
  list_to_map
    [("Year", []); ("Revenues", []); ("Total_Costs", []);
     ("Residual_Value", [])].





(** The costless table with a Revenues column beside it. *)
Definition costless_and_more : DataFrame := costless ∪ revenues_only.

(** ** Facts about binary64 arithmetic *)

Section Binary64.







End Binary64.

(** ** The evaluations as state transformers *)

Ltac run :=
  unfold financial_evaluation, economic_evaluation, try_except,
    financial_body, economic_body, mbind, M_bind, mret, M_ret,
    getitem, lift, show, data_columns in *;
  simpl in *.

Section Effects.
Context `{Numerics}.

(** The [try] blocks only read: whatever they return, the state is the
    one they started from. *)
Lemma financial_body_reads rate s : (financial_body rate s).2 = s.
Proof. run. repeat case_match; simplify_eq; reflexivity. Qed.

Lemma economic_body_reads rate s : (economic_body rate s).2 = s.
Proof. run. repeat case_match; simplify_eq; reflexivity. Qed.

(** A [try] block that returns, returns three values. *)
Lemma financial_body_returns rate s t :
  (financial_body rate s).1 = Ok t →
  ∃ npv irr drc, t = (Some npv, Some irr, Some drc).
Proof. run. intros E. repeat case_match; simplify_eq; simpl in *; simplify_eq; eauto. Qed.

Lemma economic_body_returns rate s t :
  (economic_body rate s).1 = Ok t →
  ∃ npv irr rca, t = (Some npv, Some irr, Some rca).
Proof. run. intros E. repeat case_match; simplify_eq; simpl in *; simplify_eq; eauto. Qed.

(** The evaluations never raise: they return what the block returned, or
    report the exception and return three [None]. *)
Lemma financial_evaluation_run rate s :
  financial_evaluation rate s =
  match (financial_body rate s).1 with
  | Ok t => (Ok t, s)
  | Raise e =>
      (Ok (None, None, None),
       Session (data s)
         (st_error "Erreur dans l'évaluation financière : " e :: page s))
  end.
Proof.
  pose proof (financial_body_reads rate s) as R.
  unfold financial_evaluation, try_except.
  destruct (financial_body rate s) as [[t|e] s']; simpl in *; subst; reflexivity.
Qed.

Lemma economic_evaluation_run rate s :
  economic_evaluation rate s =
  match (economic_body rate s).1 with
  | Ok t => (Ok t, s)
  | Raise e =>
      (Ok (None, None, None),
       Session (data s)
         (st_error "Erreur dans l'évaluation économique : " e :: page s))
  end.
Proof.
  pose proof (economic_body_reads rate s) as R.
  unfold economic_evaluation, try_except.
  destruct (economic_body rate s) as [[t|e] s']; simpl in *; subst; reflexivity.
Qed.

(** What the [try] blocks return depends on the frame only. *)
Lemma financial_body_frame rate s :
  (financial_body rate s).1 = (financial_body rate (Session (data s) [])).1.
Proof.
  destruct s as [d p]. run.
  repeat (case_match; simpl in *; simplify_eq); reflexivity.
Qed.

Lemma economic_body_frame rate s :
  (economic_body rate s).1 = (economic_body rate (Session (data s) [])).1.
Proof.
  destruct s as [d p]. run.
  repeat (case_match; simpl in *; simplify_eq); reflexivity.
Qed.

Lemma financial_evaluation_outcome rate s :
  financial_evaluation rate s =
  (Ok (financial_outcome rate (data s)).1,
   Session (data s) ((financial_outcome rate (data s)).2 ++ page s)).
Proof.
  rewrite financial_evaluation_run. unfold financial_outcome.
  rewrite <- financial_body_frame.
  destruct (financial_body rate s).1; [destruct s|]; reflexivity.
Qed.

Lemma economic_evaluation_outcome rate s :
  economic_evaluation rate s =
  (Ok (economic_outcome rate (data s)).1,
   Session (data s) ((economic_outcome rate (data s)).2 ++ page s)).
Proof.
  rewrite economic_evaluation_run. unfold economic_outcome.
  rewrite <- economic_body_frame.
  destruct (economic_body rate s).1; [destruct s|]; reflexivity.
Qed.

Lemma append_if_tagged {A} language c (inj : A → value) v tags :
  append_if language c inj v (label language <$> tags) =
  label language <$> (tags ++ tagged c inj v).
Proof. destruct v; simpl; rewrite fmap_app, ?app_nil_r; reflexivity. Qed.

(** The run of [generate]: each group is evaluated when its columns are
    there, the financial one first, and the result list is the labelled
    values of the two. *)
Lemma generate_run language rate s :
  generate language rate s =
  let columns := dom (data s) in
  let f := if issubset financial_columns columns
           then financial_outcome rate (data s) else ((None, None, None), []) in
  let e := if issubset economic_columns columns
           then economic_outcome rate (data s) else ((None, None, None), []) in
  (Ok (label language <$> (financial_tags f.1 ++ economic_tags e.1)),
   Session (data s) (e.2 ++ f.2 ++ page s)).
Proof.
  unfold generate, data_columns. unfold mbind at 1, M_bind at 1.
  cbv zeta.
  destruct (issubset financial_columns (dom (data s))),
    (issubset economic_columns (dom (data s)));
    unfold mbind, M_bind, mret, M_ret;
    rewrite ?financial_evaluation_outcome;
    try destruct (financial_outcome rate (data s)) as [[[a b] c] wf];
    simpl;
    rewrite ?economic_evaluation_outcome; simpl;
    try destruct (economic_outcome rate (data s)) as [[[a' b'] c'] we];
    simpl; rewrite ?app_nil_r;
    try (destruct s; reflexivity);
    f_equal; f_equal;
    change (@nil entry) with (label language <$> []);
    rewrite !append_if_tagged; unfold financial_tags, economic_tags; simpl;
    rewrite <- ?app_assoc, ?app_nil_r; reflexivity.
Qed.

End Effects.

(** ** Series of numbers *)

Section Series.
Context `{Numerics}.



Lemma ints_length col : forallb is_int col = true → length (ints col) = length col.
Proof.
  unfold ints. induction col as [|[x|t|z] col IH]; simpl; try done.
  intros Hc. f_equal. by apply IH.
Qed.

(** A non-empty column of floats is a float64 column, loaded as it is. *)
Lemma dtype_of_numbers x xs : dtype_of (Num <$> (x :: xs)) = float64.
Proof.
  unfold dtype_of. rewrite fmap_cons. cbn [forallb is_int andb].
  replace (existsb is_text (Num x :: (Num <$> xs))) with false; [reflexivity|].
  cbn [existsb is_text orb]. induction xs as [|y ys IH]; [reflexivity|]. exact IH.
Qed.

Lemma loaded_numbers xs : loaded (Num <$> xs) = Num <$> xs.
Proof.
  destruct xs as [|x xs]; [reflexivity|]. unfold loaded.
  rewrite dtype_of_numbers, <- list_fmap_compose.
  by apply list_fmap_ext.
Qed.

Lemma rows_op_pad_left op ys :
  ∃ vs, rows_op op ((λ y, (Num nan, y)) <$> (Num <$> ys)) = Ok vs.
Proof.
  induction ys as [|y ys [vs E]]; [by exists []|].
  rewrite !fmap_cons. cbn [rows_op row_op]. rewrite E. by eexists.
Qed.

Lemma rows_op_pad_right op xs :
  ∃ vs, rows_op op ((λ x, (x, Num nan)) <$> (Num <$> xs)) = Ok vs.
Proof.
  induction xs as [|x xs [vs E]]; [by exists []|].
  rewrite !fmap_cons. cbn [rows_op row_op]. rewrite E. by eexists.
Qed.

Lemma rows_op_numbers op xs ys :
  ∃ vs, rows_op op (align (Num <$> xs) (Num <$> ys)) = Ok vs
        ∧ (length xs = length ys → vs = zip_with (float_op op) xs ys).
Proof.
  revert ys. induction xs as [|x xs IH]; intros ys.
  - destruct (rows_op_pad_left op ys) as [vs E].
    exists vs. split; [exact E|]. destruct ys; [|discriminate].
    intros _. by injection E as <-.
  - destruct ys as [|y ys].
    + destruct (rows_op_pad_right op (x :: xs)) as [vs E].
      exists vs. split; [exact E|]. discriminate.
    + destruct (IH ys) as (vs & E & Hv). rewrite !fmap_cons.
      cbn [align rows_op row_op]. rewrite E.
      eexists. split; [reflexivity|]. intros [= Hl]. cbn [zip_with].
      f_equal. by apply Hv.
Qed.

(** Arithmetic on two columns of floats never raises, and when they have
    the same length it is done entry by entry. *)
Lemma series_op_numbers op xs ys :
  ∃ s, series_op op (Num <$> xs) (Num <$> ys) = Ok s
       ∧ cells_of s = Num <$> as_floats s
       ∧ (length xs = length ys →
          as_floats s = zip_with (float_op op) xs ys
          ∧ series_lt s 0 = (λ x, (x <? 0)%float) <$> zip_with (float_op op) xs ys).
Proof.
  destruct (rows_op_numbers op xs ys) as (vs & E & Hv).
  unfold series_op.
  destruct (dtype_of (Num <$> xs)) eqn:Dx, (dtype_of (Num <$> ys)) eqn:Dy;
    rewrite ?loaded_numbers, ?E;
    try (eexists; split; [reflexivity|]; split; [reflexivity|];
         intros Hl; rewrite (Hv Hl); by split).
  destruct xs as [|x xs]; [|by rewrite dtype_of_numbers in Dx].
  destruct ys as [|y ys]; [|by rewrite dtype_of_numbers in Dy].
  eexists. split; [reflexivity|]. by split.
Qed.


Lemma dtype_of_int64 col : dtype_of col = int64 → forallb is_int col = true.
Proof.
  unfold dtype_of. destruct (forallb is_int col); [done|].
  by destruct (existsb is_text col).
Qed.

Lemma align_length a b : length (align a b) = length a `max` length b.
Proof.
  revert b. induction a as [|x a IH]; intros [|y b]; simpl;
    rewrite ?length_fmap; auto.
Qed.

Lemma rows_op_length op rows vs : rows_op op rows = Ok vs → length vs = length rows.
Proof.
  revert vs. induction rows as [|[x y] rows IH]; intros vs; simpl.
  - by intros [= <-].
  - destruct (row_op op x y); [|done]. destruct (rows_op op rows); [|done].
    intros [= <-]. simpl. f_equal. by apply IH.
Qed.

Lemma loaded_length col : length (loaded col) = length col.
Proof. unfold loaded. destruct (dtype_of col); by rewrite ?length_fmap. Qed.

(** The result of an operation has a row for every row of its operands. *)
Lemma series_op_length op a b s :
  series_op op a b = Ok s → series_length s = length a `max` length b.
Proof.
  unfold series_op.
  assert (∀ vs, rows_op op (align (loaded a) (loaded b)) = Ok vs →
                length vs = length a `max` length b) as Hrows.
  { intros vs E. apply rows_op_length in E.
    by rewrite E, align_length, !loaded_length. }
  destruct (dtype_of a) eqn:Da, (dtype_of b) eqn:Db;
    try (destruct (rows_op op _) as [vs|e] eqn:E; [|done];
         intros [= <-]; simpl; by apply Hrows).
  apply dtype_of_int64, ints_length in Da, Db.
  destruct (decide (length a = length b)) as [Hl|Hl]; intros [= <-]; simpl.
  - rewrite length_zip_with, Da, Db. lia.
  - by rewrite length_fmap, align_length.
Qed.

Lemma series_lt_length s bound : length (series_lt s bound) = series_length s.
Proof. destruct s; simpl; by rewrite length_fmap. Qed.

(** The vectorised present value and the sum of the contributions agree. *)
Lemma contributions_zip rate t cs :
  zip_with PrimFloat.div cs (np_power (1 + rate)%float <$> seq t (length cs))
  = contributions rate t cs.
Proof.
  revert t. induction cs as [|c cs IH]; intros t; [reflexivity|].
  simpl. f_equal. apply IH.
Qed.

Lemma npf_npv_discounted rate cs : npf_npv rate cs = discounted_sum rate cs.
Proof. unfold npf_npv, discounted_sum. by rewrite contributions_zip. Qed.








(** Summing booleans counts the true ones. *)
Lemma sum_bools_from bs acc :
  fold_left (λ a (b : bool), if b then (a + 1)%Z else a) bs acc
  = (acc + Z.of_nat (length (filter (λ b, b = true) bs)))%Z.
Proof.
  revert acc. induction bs as [|b bs IH]; intros acc; [simpl; lia|].
  cbn [fold_left]. rewrite IH. destruct b.
  - rewrite filter_cons_True by reflexivity. cbn [length]. lia.
  - rewrite filter_cons_False by discriminate. reflexivity.
Qed.

Lemma sum_bools_count bs :
  sum_bools bs = Z.of_nat (length (filter (λ b, b = true) bs)).
Proof. unfold sum_bools. rewrite sum_bools_from. lia. Qed.

Lemma sum_bools_bounds bs : (0 ≤ sum_bools bs ≤ Z.of_nat (length bs))%Z.
Proof.
  rewrite sum_bools_count.
  pose proof (length_filter (λ b, b = true) bs). lia.
Qed.



Lemma floats_numbers xs : floats (Num <$> xs) = xs.
Proof.
  unfold floats. induction xs as [|x xs IH]; [reflexivity|].
  rewrite fmap_cons. cbn [omap list_omap]. by rewrite IH.
Qed.

Lemma series_sum_numbers xs : series_sum (Num <$> xs) = Ok (np_sum (skipna xs)).
Proof.
  destruct xs as [|x xs]; [reflexivity|]. unfold series_sum.
  by rewrite dtype_of_numbers, floats_numbers.
Qed.



(** What the economic [try] block gives on float64 columns. *)
Lemma economic_body_numeric rate s revs costs exts :
  data s !! "Corrected_Revenues" = Some (Num <$> revs) →
  data s !! "Corrected_Costs" = Some (Num <$> costs) →
  data s !! "Externalities" = Some (Num <$> exts) →
  length revs = length costs →
  length costs = length exts →
  (economic_body rate s).1 =
  let cash_flows :=
    zip_with PrimFloat.add (zip_with PrimFloat.sub revs costs) exts in
  match npf_irr cash_flows with
  | Ok irr =>
      Ok (Some (npf_npv rate cash_flows), Some irr,
          Some (npf_npv rate cash_flows / np_sum (skipna costs))%float)
  | Raise e => Raise e
  end.
Proof.
  intros Hr Hc He Hl Hl'.
  unfold economic_body, mbind, M_bind, mret, M_ret, getitem, lift.
  rewrite Hr, Hc.
  destruct (series_op_numbers Sub revs costs) as (net & -> & Hn & Hv).
  destruct (Hv Hl) as [En _]. simpl. rewrite He, Hn, En.
  destruct (series_op_numbers Add (zip_with (float_op Sub) revs costs) exts)
    as (c & -> & _ & Hv').
  destruct Hv' as [-> _]; [rewrite length_zip_with; lia|]. simpl.
  destruct (npf_irr _); [|reflexivity]. simpl.
  by rewrite Hc, series_sum_numbers.
Qed.

End Series.

(** ** The indicators *)

Section Indicators.
Context `{Numerics}.





(** C10: when financial_evaluation returns a recoveryPeriod, it is an
    integer between zero and the number of rows of the table. *)
Theorem recovery_period_bounds n rate s t s' drc :
  well_formed n (data s) →
  financial_evaluation rate s = (Ok t, s') →
  t.2 = Some drc →
  (0 ≤ drc ≤ Z.of_nat n)%Z.
Proof.
  intros Hwf E Hd. rewrite financial_evaluation_run in E.
  destruct (financial_body rate s).1 as [t'|e] eqn:B; [|simplify_eq].
  injection E as <- <-. revert B. run.
  destruct (data s !! "Revenues") as [a|] eqn:Ha; [|discriminate].
  destruct (data s !! "Total_Costs") as [b|] eqn:Hb; [|discriminate].
  destruct (series_op Sub a b) as [c|] eqn:Hop; [|discriminate]. simpl.
  destruct (npf_irr _); [|discriminate]. simpl. intros B.
  injection B as <-. simpl in Hd. injection Hd as <-.
  pose proof (sum_bools_bounds (series_lt c 0)) as Hb'.
  rewrite series_lt_length, (series_op_length _ _ _ _ Hop) in Hb'.
  apply Hwf in Ha, Hb. simpl in Ha, Hb. lia.
Qed.


End Indicators.

(** ** Runs of [generate] *)

Section Runs.
Context `{Numerics}.

(** Within a language no two codes share a label. *)
Lemma TRANSLATIONS_inj language c c' :
  TRANSLATIONS c language = TRANSLATIONS c' language → c = c'.
Proof. destruct language, c, c'; simpl; intros E; first [reflexivity|discriminate E]. Qed.

Lemma group_codes_disjoint g g' c :
  c ∈ group_codes g → c ∈ group_codes g' → g = g'.
Proof.
  destruct g, g'; simpl; intros Hc Hc'; try reflexivity;
    repeat (apply elem_of_cons in Hc as [->|Hc]);
    try (by apply elem_of_nil in Hc);
    repeat (apply elem_of_cons in Hc' as [?|Hc']; [discriminate|]);
    by apply elem_of_nil in Hc'.
Qed.

(** A group either gives its three indicators and writes nothing, or gives
    none and writes its error message. *)
Lemma group_outcome_cases g rate d :
  (∃ c1 v1 c2 v2 c3 v3,
      (group_outcome g rate d).1 = [(c1, v1); (c2, v2); (c3, v3)]
      ∧ group_codes g = [c1; c2; c3]
      ∧ (group_outcome g rate d).2 = [])
  ∨ (∃ e, (group_outcome g rate d).1 = []
          ∧ (group_outcome g rate d).2 = [st_error (group_prefix g) e]
          ∧ match g with
            | Financial => (financial_body rate (Session d [])).1 = Raise e
            | Economic => (economic_body rate (Session d [])).1 = Raise e
            end).
Proof.
  destruct g; unfold group_outcome.
  - unfold financial_outcome.
    destruct (financial_body rate (Session d [])).1 as [t|e] eqn:B.
    + destruct (financial_body_returns _ _ _ B) as (a & b & c & ->).
      left. by eexists _, _, _, _, _, _.
    + right. by exists e.
  - unfold economic_outcome.
    destruct (economic_body rate (Session d [])).1 as [t|e] eqn:B.
    + destruct (economic_body_returns _ _ _ B) as (a & b & c & ->).
      left. by eexists _, _, _, _, _, _.
    + right. by exists e.
Qed.

Lemma group_outcome_codes g rate d cv :
  cv ∈ (group_outcome g rate d).1 → cv.1 ∈ group_codes g.
Proof.
  destruct (group_outcome_cases g rate d)
    as [(c1 & v1 & c2 & v2 & c3 & v3 & -> & -> & _)|(e & -> & _)].
  - intros Hcv. repeat (apply elem_of_cons in Hcv as [->|Hcv]); simpl;
      [set_solver..|by apply elem_of_nil in Hcv].
  - by intros ?%elem_of_nil.
Qed.

Lemma group_outcome_written g rate d w :
  w ∈ (group_outcome g rate d).2 → ∃ e, w = st_error (group_prefix g) e.
Proof.
  destruct (group_outcome_cases g rate d)
    as [(c1 & v1 & c2 & v2 & c3 & v3 & _ & _ & ->)|(e & _ & -> & _)].
  - by intros ?%elem_of_nil.
  - intros ->%list_elem_of_singleton. by exists e.
Qed.

(** The run of [generate] in terms of the two groups. *)
Lemma generate_groups language rate s :
  generate language rate s =
  (Ok (label language <$>
         ((selected Financial rate (data s)).1 ++ (selected Economic rate (data s)).1)),
   Session (data s)
     ((selected Economic rate (data s)).2 ++ (selected Financial rate (data s)).2
        ++ page s)).
Proof.
  rewrite generate_run. cbv zeta. unfold selected, group_columns, group_outcome.
  destruct (issubset financial_columns _), (issubset economic_columns _);
    reflexivity.
Qed.

(** [main] with a loaded sheet and the button pressed: the sheet is filled
    in place, shown, evaluated at the hundredth of the rate typed in, and the
    result list is written. *)
Lemma main_run language sheet rate_input s :
  main language (Ok sheet) rate_input true s =
  let d := filled sheet in
  let out :=
    generate language (rate_input / 100)%float
      (Session d
         (st_dataframe d :: st_success "Fichier chargé avec succès !" :: page s))
  in
  (Ok tt, Session d (st_write (results_of out) :: page out.2)).
Proof.
  cbv zeta. rewrite generate_groups. unfold main, mbind, M_bind. simpl.
  rewrite generate_groups. reflexivity.
Qed.

Lemma selected_inv g rate d :
  (selected g rate d).1 ≠ [] ∨ (selected g rate d).2 ≠ [] →
  issubset (group_columns g) (dom d) = true.
Proof.
  unfold selected. destruct (issubset _ _); [reflexivity|]. simpl.
  intros [?|?]; congruence.
Qed.

Lemma issubset_true wanted columns :
  issubset wanted columns = true ↔ wanted ⊆ columns.
Proof. unfold issubset. apply bool_decide_eq_true. Qed.

(** C7: for the same table and rate, the French and the English run give
    the same values in the same order and write the same page; an entry of
    one differs from its counterpart only by the label, which is the
    translation of the same code. *)
Theorem language_changes_labels_only rate s :
  (∃ tags s',
      generate fr rate s = (Ok (label fr <$> tags), s')
      ∧ generate en rate s = (Ok (label en <$> tags), s'))
  ∧ Valeur <$> results_of (generate fr rate s)
    = Valeur <$> results_of (generate en rate s).
Proof.
  rewrite !generate_groups. split.
  - eexists _, _. split; reflexivity.
  - unfold results_of. simpl. rewrite <- !list_fmap_compose. reflexivity.
Qed.

(** The financial [try] block reads two columns only. *)
Lemma financial_body_columns rate s1 s2 :
  data s1 !! "Revenues" = data s2 !! "Revenues" →
  data s1 !! "Total_Costs" = data s2 !! "Total_Costs" →
  (financial_body rate s1).1 = (financial_body rate s2).1.
Proof.
  destruct s1 as [d1 p1], s2 as [d2 p2]. simpl. intros Hr Hc. run.
  rewrite Hr. destruct (d2 !! "Revenues"); simpl; [|reflexivity].
  rewrite Hc.
  repeat (case_match; simpl in *; simplify_eq); reflexivity.
Qed.

(** C8: two tables that have the four financial columns and the same
    Revenues and Total_Costs columns get the same (npv, irr, recoveryPeriod)
    from financial_evaluation at the same rate, whatever their Year and
    Residual_Value columns hold. *)
Theorem year_and_residual_value_unread rate s1 s2 :
  financial_columns ⊆ dom (data s1) →
  financial_columns ⊆ dom (data s2) →
  data s1 !! "Revenues" = data s2 !! "Revenues" →
  data s1 !! "Total_Costs" = data s2 !! "Total_Costs" →
  (financial_evaluation rate s1).1 = (financial_evaluation rate s2).1.
Proof.
  intros _ _ Hr Hc. rewrite !financial_evaluation_run.
  rewrite (financial_body_columns rate s1 s2 Hr Hc).
  destruct (financial_body rate s2).1; reflexivity.
Qed.

(** C9: neither evaluation changes the table: after a call, returned or
    failed, the frame is the one it was given. *)
Theorem evaluations_leave_the_table rate s :
  data (financial_evaluation rate s).2 = data s
  ∧ data (economic_evaluation rate s).2 = data s.
Proof.
  rewrite financial_evaluation_run, economic_evaluation_run.
  split; [destruct (financial_body rate s).1|destruct (economic_body rate s).1];
    reflexivity.
Qed.

(** A group whose [try] block raises contributes no indicator, and its
    error message is on the page when the group was selected. *)
Lemma failed_group g language rate s e :
  match g with
  | Financial => (financial_body rate s).1 = Raise e
  | Economic => (economic_body rate s).1 = Raise e
  end →
  (∀ r c, r ∈ results_of (generate language rate s) → c ∈ group_codes g →
          Indicateur r ≠ TRANSLATIONS c language)
  ∧ (group_columns g ⊆ dom (data s) →
     st_error (group_prefix g) e ∈ page (generate language rate s).2).
Proof.
  intros B.
  assert (group_outcome g rate (data s) = ([], [st_error (group_prefix g) e]))
    as Hg.
  { destruct g; unfold group_outcome, financial_outcome, economic_outcome;
      [rewrite <- financial_body_frame|rewrite <- economic_body_frame];
      rewrite B; reflexivity. }
  rewrite generate_groups. unfold results_of. simpl. split.
  - intros r c Hr Hc Hl.
    apply list_elem_of_fmap in Hr as (cv & -> & Hcv).
    simpl in Hl. apply TRANSLATIONS_inj in Hl.
    assert (∃ g', g' ≠ g ∧ cv ∈ (selected g' rate (data s)).1) as (g' & Hne & Hin).
    { apply elem_of_app in Hcv as [Hcv|Hcv];
        [exists Financial|exists Economic]; (split; [|exact Hcv]);
        intros <-; unfold selected in Hcv; rewrite Hg in Hcv;
        destruct (issubset _ _); by apply elem_of_nil in Hcv. }
    assert ((selected g' rate (data s)).1 ≠ []) as Hn
      by (intros E; rewrite E in Hin; by apply elem_of_nil in Hin).
    pose proof (selected_inv _ _ _ (or_introl Hn)) as Hs.
    unfold selected in Hin. rewrite Hs in Hin.
    apply group_outcome_codes in Hin. rewrite Hl in Hin.
    apply Hne. exact (group_codes_disjoint _ _ _ Hin Hc).
  - intros Hs%issubset_true.
    assert (selected g rate (data s) = ([], [st_error (group_prefix g) e]))
      as Hsel by (unfold selected; by rewrite Hs).
    destruct g; rewrite Hsel; set_solver.
Qed.

(** C6: when the [try] block of an evaluation raises, the evaluation
    returns three [None] and writes its error message with the exception;
    none of the group's three indicators is in the result list of the run,
    and the message is on its page.  An evaluation never returns some of
    its three values without the others. *)
Theorem failed_evaluation_discards_its_indicators language rate s :
  (∀ e, (financial_body rate s).1 = Raise e →
     financial_evaluation rate s =
       (Ok (None, None, None),
        Session (data s) (st_error (group_prefix Financial) e :: page s))
     ∧ (∀ r c, r ∈ results_of (generate language rate s) →
               c ∈ group_codes Financial →
               Indicateur r ≠ TRANSLATIONS c language)
     ∧ (financial_columns ⊆ dom (data s) →
        st_error (group_prefix Financial) e ∈ page (generate language rate s).2))
  ∧ (∀ e, (economic_body rate s).1 = Raise e →
     economic_evaluation rate s =
       (Ok (None, None, None),
        Session (data s) (st_error (group_prefix Economic) e :: page s))
     ∧ (∀ r c, r ∈ results_of (generate language rate s) →
               c ∈ group_codes Economic →
               Indicateur r ≠ TRANSLATIONS c language)
     ∧ (economic_columns ⊆ dom (data s) →
        st_error (group_prefix Economic) e ∈ page (generate language rate s).2))
  ∧ (∀ t s', financial_evaluation rate s = (Ok t, s') →
       t = (None, None, None) ∨ ∃ npv irr drc, t = (Some npv, Some irr, Some drc))
  ∧ (∀ t s', economic_evaluation rate s = (Ok t, s') →
       t = (None, None, None) ∨ ∃ npv irr rca, t = (Some npv, Some irr, Some rca)).
Proof.
  split; [|split; [|split]].
  - intros e B. split; [|exact (failed_group Financial language rate s e B)].
    rewrite financial_evaluation_run, B. reflexivity.
  - intros e B. split; [|exact (failed_group Economic language rate s e B)].
    rewrite economic_evaluation_run, B. reflexivity.
  - intros t s' E. rewrite financial_evaluation_run in E.
    destruct (financial_body rate s).1 as [t'|e] eqn:B; injection E as <- _.
    + right. exact (financial_body_returns _ _ _ B).
    + left. reflexivity.
  - intros t s' E. rewrite economic_evaluation_run in E.
    destruct (economic_body rate s).1 as [t'|e] eqn:B; injection E as <- _.
    + right. exact (economic_body_returns _ _ _ B).
    + left. reflexivity.
Qed.




(** A number above zero is not below zero. *)
Lemma positive_not_negative (c : float) :
  (0 <? c)%float = true → (c <? 0)%float = false.
Proof.
  rewrite !ltb_spec. change (Prim2SF 0) with (S754_zero false).
  unfold SFltb.
  destruct (Prim2SF c) as [sc|[|]| |[|] m e]; simpl; congruence.
Qed.

Lemma no_negative_period (c : series) :
  all_positive c → sum_bools (series_lt c 0) = 0%Z.
Proof.
  intros Hp. rewrite sum_bools_count.
  replace (filter (λ b, b = true) (series_lt c 0)) with (@nil bool);
    [reflexivity|].
  symmetry. destruct c as [zs|xs]; simpl in *.
  - induction Hp as [|z zs Hz _ IH]; [reflexivity|].
    rewrite fmap_cons, filter_cons_False; [exact IH|].
    intros E%Z.ltb_lt. lia.
  - induction Hp as [|x xs Hx _ IH]; [reflexivity|].
    rewrite fmap_cons, filter_cons_False; [exact IH|].
    change (float_of_int 0) with 0%float.
    by rewrite (positive_not_negative _ Hx).
Qed.

(** C2, as the code has it: on a table with the financial columns whose net
    cash flows, as the code computes them, are all above zero, the irr is
    never missing on its own.  When irr returns a number (NaN when it finds
    no rate), the run reports no financial error and its result list begins
    with the npv, that irr and the recoveryPeriod, which is zero; when irr
    raises, the financial error is written and none of the three is in the
    list.  What follows in the list and on the page is the economic
    group's. *)
Theorem irr_of_positive_series language rate s revenues total_costs cash_flows :
  financial_columns ⊆ dom (data s) →
  data s !! "Revenues" = Some revenues →
  data s !! "Total_Costs" = Some total_costs →
  series_op Sub revenues total_costs = Ok cash_flows →
  all_positive cash_flows →
  ∃ rest written,
    generate language rate s =
      (Ok (label language <$>
             (match npf_irr (as_floats cash_flows) with
              | Ok irr =>
                  [(VANF, VFloat (npf_npv rate (as_floats cash_flows)));
                   (TRIF, VFloat irr); (DRC, VInt 0)]
              | Raise _ => []
              end ++ rest)),
       Session (data s)
         (written
            ++ match npf_irr (as_floats cash_flows) with
               | Ok _ => []
               | Raise e => [st_error (group_prefix Financial) e]
               end
            ++ page s))
    ∧ (∀ cv, cv ∈ rest → cv.1 ∈ group_codes Economic)
    ∧ (∀ w, w ∈ written → ∃ e, w = st_error (group_prefix Economic) e).
Proof.
  intros Hs%issubset_true Hr Hc Hop Hp.
  rewrite generate_groups.
  exists (selected Economic rate (data s)).1, (selected Economic rate (data s)).2.
  assert (selected Financial rate (data s)
          = match npf_irr (as_floats cash_flows) with
            | Ok irr =>
                ([(VANF, VFloat (npf_npv rate (as_floats cash_flows)));
                  (TRIF, VFloat irr); (DRC, VInt 0)], [])
            | Raise e => ([], [st_error (group_prefix Financial) e])
            end) as ->.
  { unfold selected. simpl group_columns. rewrite Hs.
    unfold group_outcome, financial_outcome.
    unfold financial_body, mbind, M_bind, mret, M_ret, getitem, lift. simpl.
    rewrite Hr. simpl. rewrite Hc. simpl. rewrite Hop. simpl.
    rewrite (no_negative_period _ Hp). by destruct (npf_irr _). }
  split; [by destruct (npf_irr _)|]. split.
  - intros cv Hcv. unfold selected in Hcv.
    destruct (issubset (group_columns Economic) _).
    + by apply group_outcome_codes in Hcv.
    + by apply elem_of_nil in Hcv.
  - intros w Hw. unfold selected in Hw.
    destruct (issubset (group_columns Economic) _).
    + by apply group_outcome_written in Hw.
    + by apply elem_of_nil in Hw.
Qed.

End Runs.

(** ** The theorems at work on the example frames *)





(** C10 on the spec's table, which has three rows. *)
Lemma recovery_period_bounds_witness :
  well_formed 3 spec_example
  ∧ (@financial_evaluation reference (percent 8) (Session spec_example [])).1
    = Ok (Some (@npf_npv reference (percent 8) [50; -50; 50]%float),
          Some nan, Some 1%Z)
  ∧ (0 ≤ 1 ≤ Z.of_nat 3)%Z.
Proof.
  assert (well_formed 3 spec_example) as Hwf
    by (apply (bool_decide_unpack _); vm_compute; exact I).
  split; [exact Hwf|]. split; [reflexivity|].
  exact (@recovery_period_bounds reference 3 (percent 8)
           (Session spec_example []) _ _ 1%Z Hwf eq_refl eq_refl).
Defined.



(** C2 on the profitable table, in English: the irr returns NaN there. *)
Lemma irr_of_positive_series_witness :
  ∃ rest written,
    @generate reference en (percent 8) (Session profitable [])
    = (Ok (label en <$>
             ([(VANF, VFloat (@npf_npv reference (percent 8) [50; 40; 30]%float));
               (TRIF, VFloat nan); (DRC, VInt 0)] ++ rest)),
       Session profitable (written ++ [] ++ []))
    ∧ (∀ cv, cv ∈ rest → cv.1 ∈ group_codes Economic)
    ∧ (∀ w, w ∈ written → ∃ e, w = st_error (group_prefix Economic) e).
Proof.
  apply (@irr_of_positive_series reference en (percent 8)
           (Session profitable [])
           (numbers [100; 100; 100]%float) (numbers [50; 60; 70]%float)
           (Floats [50; 40; 30]%float)).
  - apply (bool_decide_unpack _). vm_compute. exact I.
  - reflexivity.
  - reflexivity.
  - reflexivity.
  - repeat constructor.
Defined.

(** C2 fails as stated: the net cash flows 50, 40, 30 of the profitable
    table are all positive, and the result list of the run has the irr, with
    the value NaN, between the npv and the recoveryPeriod. *)
Lemma positive_series_has_an_irr_entry :
  forallb (λ c, (0 <? c)%float) [100 - 50; 100 - 60; 100 - 70]%float = true
  ∧ @generate reference fr (percent 8) (Session profitable [])
    = (Ok [Entry "Valeur Actuelle Nette Financière"
             (VFloat (50 + 40 / (1 + percent 8)
                      + 30 / ((1 + percent 8) * (1 + percent 8)))%float);
           Entry "Taux de Rendement Interne Financier" (VFloat nan);
           Entry "Délai de Récupération du Capital" (VInt 0)],
       Session profitable []).
Proof. split; vm_compute; reflexivity. Qed.

(** C6 on the mistyped table: both [try] blocks raise [TypeError]. *)
Lemma failed_evaluation_discards_its_indicators_witness :
  (@financial_evaluation reference (percent 8) (Session mistyped [])
   = (Ok (None, None, None),
      Session mistyped [st_error (group_prefix Financial) TypeError])
   ∧ st_error (group_prefix Financial) TypeError
     ∈ page (@generate reference fr (percent 8) (Session mistyped [])).2)
  ∧ (@economic_evaluation reference (percent 8) (Session mistyped [])
     = (Ok (None, None, None),
        Session mistyped [st_error (group_prefix Economic) TypeError])
     ∧ st_error (group_prefix Economic) TypeError
       ∈ page (@generate reference fr (percent 8) (Session mistyped [])).2)
  ∧ results_of (@generate reference fr (percent 8) (Session mistyped [])) = [].
Proof.
  destruct (@failed_evaluation_discards_its_indicators reference fr (percent 8)
              (Session mistyped [])) as (Hf & He & _).
  destruct (Hf TypeError eq_refl) as (E1 & _ & P1).
  destruct (He TypeError eq_refl) as (E2 & _ & P2).
  split; [|split].
  - split; [exact E1|]. apply P1, (bool_decide_unpack _). vm_compute. exact I.
  - split; [exact E2|]. apply P2, (bool_decide_unpack _). vm_compute. exact I.
  - vm_compute. reflexivity.
Defined.

(** C8 on the spec's table and its copy with other years and residual
    values. *)
Lemma year_and_residual_value_unread_witness :
  spec_example !! "Year" ≠ spec_example_shifted !! "Year"
  ∧ spec_example !! "Residual_Value" ≠ spec_example_shifted !! "Residual_Value"
  ∧ (@financial_evaluation reference (percent 8) (Session spec_example [])).1
    = (@financial_evaluation reference (percent 8)
         (Session spec_example_shifted [])).1.
Proof.
  split; [|split].
  - vm_compute. discriminate.
  - vm_compute. discriminate.
  - apply (@year_and_residual_value_unread reference (percent 8)
             (Session spec_example []) (Session spec_example_shifted []));
      first [reflexivity|apply (bool_decide_unpack _); vm_compute; exact I].
Defined.

(** ** Errors of the two evaluations *)

Section Failures.
Context `{Numerics}.

(** X2: a table without the Revenues column makes financial_evaluation fail
    with the KeyError of Revenues, and one with Revenues but without
    Total_Costs with the KeyError of Total_Costs: three None are returned, and
    the message names the first column that could not be read. *)
Theorem financial_evaluation_missing_column rate s :
  (data s !! "Revenues" = None →
   financial_evaluation rate s
   = (Ok (None, None, None), failed Financial (KeyError "Revenues") s))
  ∧ (is_Some (data s !! "Revenues") → data s !! "Total_Costs" = None →
     financial_evaluation rate s
     = (Ok (None, None, None), failed Financial (KeyError "Total_Costs") s)).
Proof.
  split.
  - intros Hr. rewrite financial_evaluation_run. run. by rewrite Hr.
  - intros [a Hr] Hc. rewrite financial_evaluation_run. run.
    by rewrite Hr, Hc.
Qed.


End Failures.

(** ** More on the values of the two evaluations *)

Section Values.
Context `{Numerics}.

(** X1: on float64 economic columns the npv that economic_evaluation returns
    is the discounted sum of the net cash flows
    Corrected_Revenues_t - Corrected_Costs_t + Externalities_t, period t
    contributing its flow over (1 + r) ** t from period 0 on; it is returned
    unless the search for the irr raised, and then no npv is returned. *)
Theorem economic_npv_is_discounted_sum rate s revs costs exts :
  data s !! "Corrected_Revenues" = Some (Num <$> revs) →
  data s !! "Corrected_Costs" = Some (Num <$> costs) →
  data s !! "Externalities" = Some (Num <$> exts) →
  length revs = length costs →
  length costs = length exts →
  let c := zip_with PrimFloat.add (zip_with PrimFloat.sub revs costs) exts in
  ∃ t s',
    economic_evaluation rate s = (Ok t, s')
    ∧ t.1.1 = match npf_irr c with
              | Ok _ => Some (discounted_sum rate c)
              | Raise _ => None
              end.
Proof.
  intros Hr Hc He Hl Hl' c. rewrite economic_evaluation_run.
  rewrite (economic_body_numeric rate s revs costs exts Hr Hc He Hl Hl').
  cbv zeta. fold c. rewrite npf_npv_discounted.
  destruct (npf_irr c); eexists _, _; split; reflexivity.
Qed.

(** The [try] blocks ask the rate for the npv only. *)
Lemma financial_body_rate rate rate' s :
  match (financial_body rate s).1, (financial_body rate' s).1 with
  | Ok t, Ok t' => t.1.2 = t'.1.2 ∧ t.2 = t'.2
  | Raise e, Raise e' => e = e'
  | _, _ => False
  end.
Proof. run. repeat (case_match; simpl in *; simplify_eq); auto. Qed.

Lemma economic_body_rate rate rate' s :
  match (economic_body rate s).1, (economic_body rate' s).1 with
  | Ok t, Ok t' => t.1.2 = t'.1.2
  | Raise e, Raise e' => e = e'
  | _, _ => False
  end.
Proof. run. repeat (case_match; simpl in *; simplify_eq); auto. Qed.

(** X6: the discount rate enters the npv (and through it the adjusted
    yield) only: at two rates, on the same table, financial_evaluation
    returns the same irr and the same recoveryPeriod and economic_evaluation
    the same irr, and each of them fails at one rate exactly when it fails at
    the other, with the same message. *)
Theorem discount_rate_moves_the_npv_only rate rate' s :
  (∃ t t' s',
      financial_evaluation rate s = (Ok t, s')
      ∧ financial_evaluation rate' s = (Ok t', s')
      ∧ t.1.2 = t'.1.2 ∧ t.2 = t'.2
      ∧ (t.1.1 = None ↔ t'.1.1 = None))
  ∧ (∃ t t' s',
      economic_evaluation rate s = (Ok t, s')
      ∧ economic_evaluation rate' s = (Ok t', s')
      ∧ t.1.2 = t'.1.2
      ∧ (t.1.1 = None ↔ t'.1.1 = None)
      ∧ (t.2 = None ↔ t'.2 = None)).
Proof.
  split.
  - rewrite !financial_evaluation_run.
    pose proof (financial_body_rate rate rate' s) as R.
    destruct (financial_body rate s).1 as [t|e] eqn:B,
             (financial_body rate' s).1 as [t'|e'] eqn:B'; try done.
    + destruct R as [R1 R2].
      destruct (financial_body_returns _ _ _ B) as (a & b & c & ->).
      destruct (financial_body_returns _ _ _ B') as (a' & b' & c' & ->).
      by eexists _, _, _.
    + subst e'. by eexists _, _, _.
  - rewrite !economic_evaluation_run.
    pose proof (economic_body_rate rate rate' s) as R.
    destruct (economic_body rate s).1 as [t|e] eqn:B,
             (economic_body rate' s).1 as [t'|e'] eqn:B'; try done.
    + destruct (economic_body_returns _ _ _ B) as (a & b & c & ->).
      destruct (economic_body_returns _ _ _ B') as (a' & b' & c' & ->).
      by eexists _, _, _.
    + subst e'. by eexists _, _, _.
Qed.

(** The economic [try] block reads three columns only. *)
Lemma economic_body_columns rate s1 s2 :
  data s1 !! "Corrected_Revenues" = data s2 !! "Corrected_Revenues" →
  data s1 !! "Corrected_Costs" = data s2 !! "Corrected_Costs" →
  data s1 !! "Externalities" = data s2 !! "Externalities" →
  (economic_body rate s1).1 = (economic_body rate s2).1.
Proof.
  destruct s1 as [d1 p1], s2 as [d2 p2]. simpl. intros Hr Hc He. run.
  rewrite Hr. destruct (d2 !! "Corrected_Revenues"); simpl; [|reflexivity].
  rewrite Hc. destruct (d2 !! "Corrected_Costs") eqn:Hc2; simpl; [|reflexivity].
  destruct (series_op _ _ _); simpl; [|reflexivity].
  rewrite He. destruct (d2 !! "Externalities"); simpl; [|reflexivity].
  destruct (series_op _ _ _); simpl; [|reflexivity].
  destruct (npf_irr _); simpl; [|reflexivity].
  rewrite Hc, Hc2. simpl. destruct (series_sum _); reflexivity.
Qed.

(** X7: economic_evaluation reads the Corrected_Revenues, Corrected_Costs
    and Externalities columns only: two tables that agree on these three get
    the same (npv, irr, adjustedYield), or the same failure, at the same
    rate, whatever other columns they have. *)
Theorem economic_evaluation_reads_three_columns rate s1 s2 :
  data s1 !! "Corrected_Revenues" = data s2 !! "Corrected_Revenues" →
  data s1 !! "Corrected_Costs" = data s2 !! "Corrected_Costs" →
  data s1 !! "Externalities" = data s2 !! "Externalities" →
  (economic_evaluation rate s1).1 = (economic_evaluation rate s2).1
  ∧ economic_outcome rate (data s1) = economic_outcome rate (data s2).
Proof.
  intros Hr Hc He. split.
  - rewrite !economic_evaluation_run.
    rewrite (economic_body_columns rate s1 s2 Hr Hc He).
    destruct (economic_body rate s2).1; reflexivity.
  - unfold economic_outcome.
    by rewrite (economic_body_columns rate (Session (data s1) [])
                  (Session (data s2) []) Hr Hc He).
Qed.

Lemma every_period_negative (c : series) :
  all_negative c → sum_bools (series_lt c 0) = Z.of_nat (series_length c).
Proof.
  intros Hn. rewrite sum_bools_count. f_equal.
  rewrite <- (series_lt_length c 0).
  replace (filter (λ b, b = true) (series_lt c 0)) with (series_lt c 0);
    [reflexivity|].
  symmetry. destruct c as [zs|xs]; simpl in *.
  - induction Hn as [|z zs Hz _ IH]; [reflexivity|].
    rewrite fmap_cons, filter_cons_True by (by apply Z.ltb_lt).
    by rewrite IH.
  - induction Hn as [|x xs Hx _ IH]; [reflexivity|].
    rewrite fmap_cons, filter_cons_True by exact Hx.
    by rewrite IH.
Qed.

(** X11: on a table whose net cash flows, as the code computes them, are all
    below zero, the recoveryPeriod that financial_evaluation returns is the
    number of periods; it is returned with the npv and the irr unless the
    search for the irr raised. *)
Theorem loss_making_series rate s revenues total_costs cash_flows :
  data s !! "Revenues" = Some revenues →
  data s !! "Total_Costs" = Some total_costs →
  series_op Sub revenues total_costs = Ok cash_flows →
  all_negative cash_flows →
  financial_evaluation rate s
  = match npf_irr (as_floats cash_flows) with
    | Ok irr =>
        (Ok (Some (npf_npv rate (as_floats cash_flows)), Some irr,
             Some (Z.of_nat (series_length cash_flows))), s)
    | Raise e => (Ok (None, None, None), failed Financial e s)
    end.
Proof.
  intros Hr Hc Hop Hn. rewrite financial_evaluation_run. run.
  rewrite Hr, Hc, Hop. simpl. rewrite (every_period_negative _ Hn).
  by destruct (npf_irr _).
Qed.

(** X18: on a table that has the Revenues and Total_Costs columns but no
    row, the npv is 0 and the recoveryPeriod is 0; the irr is what the root
    search makes of the empty series, and if that search raises the
    evaluation fails with its exception. *)
Theorem evaluation_of_no_rows rate s :
  data s !! "Revenues" = Some [] →
  data s !! "Total_Costs" = Some [] →
  financial_evaluation rate s
  = match irr_roots [] with
    | Ok irr => (Ok (Some 0%float, Some irr, Some 0%Z), s)
    | Raise e => (Ok (None, None, None), failed Financial e s)
    end.
Proof.
  intros Hr Hc. rewrite financial_evaluation_run. run. rewrite Hr, Hc. simpl.
  unfold npf_irr. simpl. by destruct (irr_roots []).
Qed.

End Values.

(** ** The whole run: [fillna], [generate], [main] and the chart *)

Section Page.
Context `{Numerics}.

(** What a group contributes is nothing or its three indicators. *)
Lemma selected_cases g rate d :
  ((selected g rate d).1 = []
   ∧ ((selected g rate d).2 = []
      ∨ ∃ e, (selected g rate d).2 = [st_error (group_prefix g) e]))
  ∨ (∃ v1 v2 v3,
       (selected g rate d).1 = zip (group_codes g) [v1; v2; v3]
       ∧ (selected g rate d).2 = []).
Proof.
  unfold selected. destruct (issubset _ _); [|left; auto].
  destruct (group_outcome_cases g rate d)
    as [(c1 & v1 & c2 & v2 & c3 & v3 & -> & -> & ->)|(e & -> & -> & _)].
  - right. by exists v1, v2, v3.
  - left. split; [reflexivity|]. right. by exists e.
Qed.

(** X8: no exception leaves the two evaluations, the building of the result
    list or [main]: whatever the table, the rate and the outcome of loading,
    each of them returns, and errors only show on the page. *)
Theorem no_exception_escapes language loaded rate_input button rate s :
  (∃ t, (financial_evaluation rate s).1 = Ok t)
  ∧ (∃ t, (economic_evaluation rate s).1 = Ok t)
  ∧ (∃ rs, (generate language rate s).1 = Ok rs)
  ∧ (main language loaded rate_input button s).1 = Ok tt.
Proof.
  rewrite financial_evaluation_outcome, economic_evaluation_outcome,
    generate_groups.
  split; [by eexists|split; [by eexists|split; [by eexists|]]].
  destruct loaded as [sheet|e]; [|reflexivity]. destruct button; [|reflexivity].
  unfold main, mbind, M_bind. simpl. by rewrite generate_groups.
Qed.

(** X9: the result list of a run holds whole groups in a fixed order: its
    indicators are none, the three financial ones (npv, irr,
    recoveryPeriod), the three economic ones (npv, irr, adjustedYield), or
    the financial three followed by the economic three. *)
Theorem results_come_in_whole_groups language rate s :
  ∃ tags,
    results_of (generate language rate s) = label language <$> tags
    ∧ (tags.*1 = []
       ∨ tags.*1 = [VANF; TRIF; DRC]
       ∨ tags.*1 = [VANE; TRIE; RCA]
       ∨ tags.*1 = [VANF; TRIF; DRC; VANE; TRIE; RCA]).
Proof.
  rewrite generate_groups. eexists. split; [reflexivity|].
  destruct (selected_cases Financial rate (data s))
    as [[-> _]|(v1 & v2 & v3 & -> & _)],
    (selected_cases Economic rate (data s))
    as [[-> _]|(w1 & w2 & w3 & -> & _)]; simpl; auto.
Qed.

(** X10: a run leaves the table as it is and only adds error messages on
    top of the page, the economic group's above the financial group's.  Each
    group whose columns are there gives either exactly its three indicators
    and no message, or no indicator and exactly one message, its own; a
    group whose columns are not there gives neither. *)
Theorem every_selected_group_is_accounted_for language rate s :
  data (generate language rate s).2 = data s
  ∧ ∃ tf wf te we,
      results_of (generate language rate s) = label language <$> (tf ++ te)
      ∧ page (generate language rate s).2 = we ++ wf ++ page s
      ∧ (if decide (financial_columns ⊆ dom (data s))
         then (tf.*1 = group_codes Financial ∧ wf = [])
              ∨ (tf = [] ∧ ∃ e, wf = [st_error (group_prefix Financial) e])
         else tf = [] ∧ wf = [])
      ∧ (if decide (economic_columns ⊆ dom (data s))
         then (te.*1 = group_codes Economic ∧ we = [])
              ∨ (te = [] ∧ ∃ e, we = [st_error (group_prefix Economic) e])
         else te = [] ∧ we = []).
Proof.
  rewrite generate_groups. split; [reflexivity|].
  exists (selected Financial rate (data s)).1, (selected Financial rate (data s)).2,
    (selected Economic rate (data s)).1, (selected Economic rate (data s)).2.
  split; [reflexivity|]. split; [reflexivity|].
  assert (∀ g,
            if decide (group_columns g ⊆ dom (data s))
            then ((selected g rate (data s)).1.*1 = group_codes g
                  ∧ (selected g rate (data s)).2 = [])
                 ∨ ((selected g rate (data s)).1 = []
                    ∧ ∃ e, (selected g rate (data s)).2
                           = [st_error (group_prefix g) e])
            else (selected g rate (data s)).1 = []
                 ∧ (selected g rate (data s)).2 = []) as Hg.
  { intros g. unfold selected, issubset.
    destruct (decide (group_columns g ⊆ dom (data s))) as [Hs|Hs].
    - rewrite (bool_decide_eq_true_2 _ Hs).
      destruct (group_outcome_cases g rate (data s))
        as [(c1 & v1 & c2 & v2 & c3 & v3 & -> & -> & ->)|(e & -> & -> & _)].
      + by left.
      + right. split; [reflexivity|]. by exists e.
    - by rewrite (bool_decide_eq_false_2 _ Hs). }
  split; [exact (Hg Financial)|exact (Hg Economic)].
Qed.

(** X17: the twelve labels of TRANSLATIONS are pairwise distinct: a label
    determines its indicator code and its language. *)
Theorem labels_identify_indicators c l c' l' :
  TRANSLATIONS c l = TRANSLATIONS c' l' ↔ c = c' ∧ l = l'.
Proof.
  split; [|by intros [-> ->]].
  destruct c, l, c', l'; simpl; intros E;
    first [by split|discriminate E].
Qed.

(** X16: a figure is drawn exactly when the result list is not empty.  Its
    bars are coloured by position and its legend pairs the colours with the
    six codes in the order of TRANSLATIONS, so every bar has the colour the
    legend gives to its indicator exactly when the financial indicators are
    in the list; when only the economic group is there, its bars wear the
    colours the legend gives to the financial indicators. *)
Theorem chart_colours_follow_positions language rate s :
  let rs := results_of (generate language rate s) in
  (chart rs = None ↔ rs = [])
  ∧ ∀ fig, chart rs = Some fig →
      length (bars fig) = length rs
      ∧ ((∀ b, b ∈ bars fig →
            ∃ c, bar_label b = TRANSLATIONS c language
                 ∧ (bar_color b, c) ∈ legend fig)
         ↔ ∃ v, Entry (TRANSLATIONS VANF language) v ∈ rs).
Proof.
  cbv zeta. rewrite generate_groups. unfold results_of. cbn -[TRANSLATIONS chart].
  destruct (selected_cases Financial rate (data s))
    as [[-> _]|(v1 & v2 & v3 & -> & _)],
    (selected_cases Economic rate (data s))
    as [[-> _]|(w1 & w2 & w3 & -> & _)]; unfold label; cbn -[TRANSLATIONS].
  - split; [done|]. intros fig [=].
  - split; [split; intros [=]|]. intros fig [= <-]. cbn -[TRANSLATIONS].
    split; [reflexivity|]. split.
    + intros Hb. exfalso.
      destruct (Hb (Bar (TRANSLATIONS VANE language) w1 "blue"))
        as (c & Hc & Hl); [set_solver|].
      cbn -[TRANSLATIONS] in Hc, Hl. apply TRANSLATIONS_inj in Hc as <-.
      repeat (apply elem_of_cons in Hl as [Hl|Hl]; [discriminate Hl|]).
      by apply elem_of_nil in Hl.
    + intros [v Hv]. exfalso.
      repeat (apply elem_of_cons in Hv as [[= Hl _]|Hv];
              [destruct language; discriminate Hl|]).
      by apply elem_of_nil in Hv.
  - split; [split; intros [=]|]. intros fig [= <-]. cbn -[TRANSLATIONS].
    split; [reflexivity|]. split.
    + intros _. exists v1. set_solver.
    + intros _ b Hb.
      apply elem_of_cons in Hb as [->|Hb]; [exists VANF; set_solver|].
      apply elem_of_cons in Hb as [->|Hb]; [exists TRIF; set_solver|].
      apply elem_of_cons in Hb as [->|Hb]; [exists DRC; set_solver|].
      by apply elem_of_nil in Hb.
  - split; [split; intros [=]|]. intros fig [= <-]. cbn -[TRANSLATIONS].
    split; [reflexivity|]. split.
    + intros _. exists v1. set_solver.
    + intros _ b Hb.
      apply elem_of_cons in Hb as [->|Hb]; [exists VANF; set_solver|].
      apply elem_of_cons in Hb as [->|Hb]; [exists TRIF; set_solver|].
      apply elem_of_cons in Hb as [->|Hb]; [exists DRC; set_solver|].
      apply elem_of_cons in Hb as [->|Hb]; [exists VANE; set_solver|].
      apply elem_of_cons in Hb as [->|Hb]; [exists TRIE; set_solver|].
      apply elem_of_cons in Hb as [->|Hb]; [exists RCA; set_solver|].
      by apply elem_of_nil in Hb.
Qed.

End Page.

(** ** [fillna] *)

Section Fillna.

Lemma fill_cell_idem c : fill_cell (fill_cell c) = fill_cell c.
Proof.
  destruct c as [x|t|z]; try reflexivity. simpl.
  destruct (is_nan x) eqn:E; simpl; [reflexivity|by rewrite E].
Qed.

(** X12: fillna keeps the columns of the table and the length of each, so
    the groups selected and the number of rows are the same before and
    after; it writes nothing on the page. *)
Theorem fillna_keeps_columns_and_rows n s :
  dom (data (fillna s).2) = dom (data s)
  ∧ (well_formed n (data (fillna s).2) ↔ well_formed n (data s))
  ∧ page (fillna s).2 = page s.
Proof.
  simpl. unfold filled, well_formed. split; [apply dom_fmap_L|].
  split; [|reflexivity]. rewrite map_Forall_fmap.
  split; intros Hf k col Hk; specialize (Hf k col Hk); unfold compose in *;
    [rewrite length_fmap in Hf|rewrite length_fmap]; exact Hf.
Qed.

(** X14: filling twice is filling once. *)
Theorem fillna_is_idempotent s : (fillna (fillna s).2).2 = (fillna s).2.
Proof.
  simpl. f_equal. unfold filled. rewrite <- map_fmap_compose.
  apply map_fmap_ext. intros k col _. simpl.
  rewrite <- list_fmap_compose. apply list_fmap_ext. intros i c _.
  apply fill_cell_idem.
Qed.

End Fillna.

(** ** These theorems at work on the example frames *)

(** X1 on the costless table at 8 %: the net cash flows are 11 and 21. *)
Lemma economic_npv_is_discounted_sum_witness :
  ∃ t s',
    @economic_evaluation reference (percent 8) (Session costless [])
    = (Ok t, s')
    ∧ t.1.1 = Some (11 + 21 / (1 + percent 8))%float.
Proof.
  destruct (@economic_npv_is_discounted_sum reference (percent 8)
              (Session costless [])
              [10; 20]%float [0; 0]%float [1; 1]%float
              eq_refl eq_refl eq_refl eq_refl eq_refl) as (t & s' & E & Ht).
  exists t, s'. split; [exact E|]. rewrite Ht. vm_compute. reflexivity.
Defined.

(** X2 on the costless table, which has no Revenues, and on the table that
    has Revenues only. *)
Lemma financial_evaluation_missing_column_witness :
  @financial_evaluation reference (percent 8) (Session costless [])
  = (Ok (None, None, None),
     Session costless [st_error (group_prefix Financial) (KeyError "Revenues")])
  ∧ @financial_evaluation reference (percent 8) (Session revenues_only [])
    = (Ok (None, None, None),
       Session revenues_only
         [st_error (group_prefix Financial) (KeyError "Total_Costs")]).
Proof.
  split.
  - exact (proj1 (@financial_evaluation_missing_column reference (percent 8)
                    (Session costless [])) eq_refl).
  - exact (proj2 (@financial_evaluation_missing_column reference (percent 8)
                    (Session revenues_only []))
             (ex_intro _ _ eq_refl) eq_refl).
Defined.


(** X7 on the costless table, alone and with a Revenues column beside
    it. *)
Lemma economic_evaluation_reads_three_columns_witness :
  costless !! "Revenues" ≠ costless_and_more !! "Revenues"
  ∧ (@economic_evaluation reference (percent 8) (Session costless [])).1
    = (@economic_evaluation reference (percent 8)
         (Session costless_and_more [])).1.
Proof.
  split; [vm_compute; discriminate|].
  exact (proj1 (@economic_evaluation_reads_three_columns reference (percent 8)
                  (Session costless []) (Session costless_and_more [])
                  eq_refl eq_refl eq_refl)).
Defined.

(** X11 on the loss-making table: three periods, each at -40; the irr
    returns NaN there. *)
Lemma loss_making_series_witness :
  @financial_evaluation reference (percent 8) (Session loss_making [])
  = (Ok (Some (@npf_npv reference (percent 8) [-40; -40; -40]%float),
         Some nan, Some 3%Z),
     Session loss_making []).
Proof.
  apply (@loss_making_series reference (percent 8) (Session loss_making [])
           (numbers [10; 20; 30]%float) (numbers [50; 60; 70]%float)
           (Floats [-40; -40; -40]%float));
    [reflexivity|reflexivity|reflexivity|repeat constructor].
Defined.

(** X18 on the sheet that has headers and no rows. *)
Lemma evaluation_of_no_rows_witness :
  @financial_evaluation reference (percent 8) (Session no_rows [])
  = (Ok (Some 0%float, Some nan, Some 0%Z), Session no_rows []).
Proof.
  exact (@evaluation_of_no_rows reference (percent 8) (Session no_rows [])
           eq_refl eq_refl).
Defined.

End Apr.
